(** * Verification model of [screenpipe-vision/src/utils.rs]

    Shallow embedding of the frame-comparison, OCR-reconstruction, capture
    and text-persistence helpers.  Floating-point values ([f32], [f64]) are
    modelled as exact rationals [Q]; the claims below concern the control
    and data flow of the code, not rounding.  External crates ([image],
    [image_compare], [xcap], [std::fs], the hasher) are parameters or small
    models of their documented behaviour. *)

From Stdlib Require Import List String Ascii ZArith NArith QArith Lia.
From Stdlib Require Import DecimalString.
Import ListNotations.
Open Scope string_scope.

(** ** Rust outcomes *)

(** A call returning [anyhow::Result<A>] may also panic. *)
Inductive Outcome (A : Type) : Type :=
| ROk : A -> Outcome A
| RErr : string -> Outcome A
| RPanic : string -> Outcome A.
Arguments ROk {A} _.
Arguments RErr {A} _.
Arguments RPanic {A} _.

(** A call returning a plain value, which may panic ([expect]/[unwrap]). *)
Inductive Panicky (A : Type) : Type :=
| Ret : A -> Panicky A
| Panic : string -> Panicky A.
Arguments Ret {A} _.
Arguments Panic {A} _.

(** ** Images (crate [image]) *)

(** [ImageBuffer<Rgba<u8>>]: width, height and raw RGBA8 bytes. *)
Record RgbaImage := mkRgba { rgba_width : nat; rgba_height : nat; rgba_raw : list Z }.

(** [ImageBuffer<Luma<u8>>]. *)
Record GrayImage := mkGray { gray_width : nat; gray_height : nat; gray_raw : list Z }.

(** [DynamicImage]; the only variant this file constructs is [ImageRgba8]. *)
Inductive DynamicImage :=
| ImageRgba8 : RgbaImage -> DynamicImage.

Definition as_bytes (img : DynamicImage) : list Z :=
  match img with ImageRgba8 b => rgba_raw b end.

Definition dimensions (img : DynamicImage) : nat * nat :=
  match img with ImageRgba8 b => (rgba_width b, rgba_height b) end.

(** Luma of one RGB pixel, with the crate's integer Rec. 709 weights. *)
Definition rgb_to_luma (r g b : Z) : Z := (2126 * r + 7152 * g + 722 * b) / 10000.

Fixpoint rgba_to_luma_bytes (raw : list Z) : list Z :=
  match raw with
  | r :: g :: b :: _ :: rest => rgb_to_luma r g b :: rgba_to_luma_bytes rest
  | _ => []
  end.

(** [DynamicImage::to_luma8]: same dimensions, one luma byte per pixel. *)
Definition to_luma8 (img : DynamicImage) : GrayImage :=
  match img with
  | ImageRgba8 b => mkGray (rgba_width b) (rgba_height b) (rgba_to_luma_bytes (rgba_raw b))
  end.

(** ** Hashing *)

Section Hashing.
(** [DefaultHasher] fed with a byte slice, then [finish]. *)
Variable hash_bytes : list Z -> N.

(** [calculate_hash] *)
Definition calculate_hash (image : DynamicImage) : N := hash_bytes (as_bytes image).
End Hashing.

(** ** Similarity engine (crate [image_compare]) *)

(** [image_compare::CompareError] as far as it is used here. *)
Inductive CompareError := DimensionMismatch | CalculationFailed (msg : string).

Definition compare_error_msg (e : CompareError) : string :=
  match e with
  | DimensionMismatch => "The dimensions of the input images are not identical"
  | CalculationFailed m => m
  end.

(** The [Debug] form of the error, as [expect] prints it. *)
Definition compare_error_debug (e : CompareError) : string :=
  match e with
  | DimensionMismatch => "DimensionsDiffer"
  | CalculationFailed m => "CalculationFailed(" ++ m ++ ")"
  end.

Record Similarity := mkSimilarity { score : Q }.

Section Similarity.
(** The histogram metric of [gray_similarity_histogram] (Hellinger). *)
Variable gray_similarity_histogram : GrayImage -> GrayImage -> Q + CompareError.
(** The MSSIM score computed on two images of equal dimensions. *)
Variable mssim_simple : GrayImage -> GrayImage -> Q.

(** [gray_similarity_structure(&Algorithm::MSSIMSimple, a, b)]: rejects
    inputs of different dimensions before computing the score. *)
Definition gray_similarity_structure (a b : GrayImage) : Similarity + CompareError :=
  if andb (Nat.eqb (gray_width a) (gray_width b)) (Nat.eqb (gray_height a) (gray_height b))
  then inl (mkSimilarity (mssim_simple a b))
  else inr DimensionMismatch.

(** [compare_images_histogram] *)
Definition compare_images_histogram (image1 image2 : DynamicImage) : Outcome Q :=
  let image_one := to_luma8 image1 in
  let image_two := to_luma8 image2 in
  match gray_similarity_histogram image_one image_two with
  | inl d => ROk d
  | inr e => RErr ("Failed to compare images: " ++ compare_error_msg e)
  end.

(** [compare_images_ssim]: [.expect("Images had different dimensions")]. *)
Definition compare_images_ssim (image1 image2 : DynamicImage) : Panicky Q :=
  let image_one := to_luma8 image1 in
  let image_two := to_luma8 image2 in
  match gray_similarity_structure image_one image_two with
  | inl result => Ret (score result)
  | inr e => Panic ("Images had different dimensions: " ++ compare_error_debug e)
  end.

(** [crate::core::MaxAverageFrame]; the only field read here is
    [frame_number]. *)
Record MaxAverageFrame := mkMaxAverageFrame { frame_number : N }.

(** [compare_with_previous_image].  The result is the returned value
    together with the final contents of the two [&mut] parameters
    [max_average] and [max_avg_value]. *)
Definition compare_with_previous_image
    (previous_image : option DynamicImage) (current_image : DynamicImage)
    (max_average : option MaxAverageFrame) (frame_number_arg : N)
    (max_avg_value : Q) : Outcome Q * option MaxAverageFrame * Q :=
  let current_average := 0%Q in
  match previous_image with
  | Some prev_image =>
      match compare_images_histogram prev_image current_image with
      | RErr e => (RErr e, max_average, max_avg_value)
      | RPanic m => (RPanic m, max_average, max_avg_value)
      | ROk histogram_diff =>
          match compare_images_ssim prev_image current_image with
          | Panic m => (RPanic m, max_average, max_avg_value)
          | Ret s =>
              let ssim_diff := (1 - s)%Q in
              let current_average := ((histogram_diff + ssim_diff) / 2)%Q in
              (* max_avg_frame_number is only read for the debug! line *)
              let _max_avg_frame_number :=
                match max_average with Some f => frame_number f | None => 0%N end in
              (ROk current_average, max_average, max_avg_value)
          end
      end
  | None => (ROk current_average, max_average, max_avg_value)
  end.
End Similarity.

(** ** Formatting helpers ([format!]) *)

(** ["{}"] on an integer. *)
Definition string_of_Z (z : Z) : string := NilZero.string_of_int (Z.to_int z).

(** ["{}"] on an unsigned integer. *)
Definition string_of_N (n : N) : string := NilZero.string_of_uint (N.to_uint n).

(** Two decimal digits of [0 <= n < 100]. *)
Definition two_digits (n : N) : string :=
  string_of_N (n / 10) ++ string_of_N (n mod 10).

(** ["{:.2}"]: the value rounded to the nearest hundredth, ties to the
    even hundredth, with a leading minus sign for negative values. *)
Definition fmt2 (q : Q) : string :=
  let n := (Qnum q * 100)%Z in
  let d := Zpos (Qden q) in
  let a := Z.abs n in
  let fl := (a / d)%Z in
  let rem := (2 * (a mod d))%Z in
  let r := Z.to_N (if Z.ltb d rem then fl + 1
                   else if Z.eqb rem d then (if Z.even fl then fl else fl + 1)
                   else fl)%Z in
  (if Z.ltb n 0 then "-" else "") ++ string_of_N (r / 100) ++ "." ++ two_digits (r mod 100).

Definition is_empty (s : string) : bool :=
  match s with EmptyString => true | _ => false end.

(** ** OCR reconstruction *)

(** One row of [rusty_tesseract::DataOutput::data]. *)
Record Data := mkData {
  level : Z; page_num : Z; block_num : Z; par_num : Z; line_num : Z;
  word_num : Z; conf : Q; text : string }.

(** [HashMap<String, String>] built by inserting distinct keys: an
    association list in insertion order. *)
Definition LineMap := list (string * string).

Fixpoint hashmap_get (k : string) (m : LineMap) : option string :=
  match m with
  | [] => None
  | (k', v) :: rest => if String.eqb k k' then Some v else hashmap_get k rest
  end.

(** [data_output_to_text]; the local [text] buffer is [text_acc] here,
    as [text] is the field accessor. *)
Definition data_output_to_text (data : list Data) : string :=
  fold_left
    (fun text_acc record =>
       if negb (is_empty (text record)) then
         (if negb (is_empty text_acc) then text_acc ++ " " else text_acc) ++ text record
       else text_acc)
    data "".

(** Loop state of [data_output_to_json]: the four [let mut] variables plus
    the output vector.  [divisors] is a ghost field recording the divisor
    [word_count] of every [current_conf / word_count as f32] evaluated. *)
Record JsonState := mkJsonState {
  lines : list LineMap;
  current_line : string;
  current_conf : Q;
  word_count : nat;
  last_word_num : Z;
  divisors : list nat }.

Definition init_state : JsonState := mkJsonState [] "" 0 0 0 [].

Definition avg_conf_of (st : JsonState) : Q :=
  (current_conf st / inject_Z (Z.of_nat (word_count st)))%Q.

Definition line_position (record : Data) : string :=
  "level" ++ string_of_Z (level record) ++ "page_num" ++ string_of_Z (page_num record)
  ++ "block_num" ++ string_of_Z (block_num record) ++ "par_num" ++ string_of_Z (par_num record)
  ++ "line_num" ++ string_of_Z (line_num record).

(** The [record.word_num == 0] branch of the loop body. *)
Definition boundary_step (st : JsonState) (record : Data) : JsonState :=
  if Z.eqb (word_num record) 0 then
    if negb (is_empty (current_line st)) then
      let line_data := [("text", current_line st);
                        ("confidence", fmt2 (avg_conf_of st));
                        ("line_position", line_position record)] in
      mkJsonState (lines st ++ [line_data]) "" 0 0 (last_word_num st)
                  (divisors st ++ [word_count st])
    else st
  else st.

(** The [record.word_num > last_word_num] branch of the loop body. *)
Definition word_step (st : JsonState) (record : Data) : JsonState :=
  if Z.ltb (last_word_num st) (word_num record) then
    let cl := if negb (is_empty (current_line st)) then current_line st ++ " "
              else current_line st in
    mkJsonState (lines st) (cl ++ text record) (current_conf st + conf record)
                (S (word_count st)) (last_word_num st) (divisors st)
  else st.

(** One iteration of [for record in &data_output.data]. *)
Definition json_step (st : JsonState) (record : Data) : JsonState :=
  let st2 := word_step (boundary_step st record) record in
  mkJsonState (lines st2) (current_line st2) (current_conf st2) (word_count st2)
              (word_num record) (divisors st2).

(** The flush after the loop. *)
Definition json_flush (st : JsonState) : JsonState :=
  if negb (is_empty (current_line st)) then
    let line_data := [("text", current_line st); ("confidence", fmt2 (avg_conf_of st))] in
    mkJsonState (lines st ++ [line_data]) (current_line st) (current_conf st)
                (word_count st) (last_word_num st) (divisors st ++ [word_count st])
  else st.

Definition json_run (data : list Data) : JsonState :=
  json_flush (fold_left json_step data init_state).

(** [data_output_to_json]: the vector handed to [serde_json::to_string_pretty]. *)
Definition data_output_to_json (data : list Data) : list LineMap :=
  lines (json_run data).

(** ** Effects: log lines and file-system calls *)

Inductive Event :=
| LogDebug (msg : string)
| LogWarn (msg : string)
| LogError (msg : string)
| CreateDirAll (path : string)
| FileCreate (path : string)
| WriteLine (path : string) (line : string).

(** How control leaves a step: fall through to the next statement with a
    value, leave the function by [return;], or panic. *)
Inductive Flow (A : Type) :=
| Next : A -> Flow A
| Return : Flow A
| Panicked : string -> Flow A.
Arguments Next {A} _.
Arguments Return {A}.
Arguments Panicked {A} _.

(** A state-and-exit monad over the trace of events. *)
Definition IO (A : Type) := list Event -> list Event * Flow A.

Definition io_ret {A} (a : A) : IO A := fun tr => (tr, Next a).
Definition io_bind {A B} (m : IO A) (k : A -> IO B) : IO B :=
  fun tr => match m tr with
            | (tr', Next a) => k a tr'
            | (tr', Return) => (tr', Return)
            | (tr', Panicked msg) => (tr', Panicked msg)
            end.
Definition emit (e : Event) : IO unit := fun tr => ((tr ++ [e])%list, Next tt).
Definition early_return {A} : IO A := fun tr => (tr, Return).
Definition panic {A} (msg : string) : IO A := fun tr => (tr, Panicked msg).

Notation "x <- m ;; k" := (io_bind m (fun x => k)) (at level 61, m at next level, right associativity).
Notation "m ;;; k" := (io_bind m (fun _ => k)) (at level 61, right associativity).

(** Outcome of an operation of the file system. *)
Record FsEnv := mkFsEnv {
  create_dir_all_ok : string -> bool;
  file_create_ok : string -> bool;
  writeln_ok : string -> string -> bool }.

(** ** Text persistence *)

Section SaveTextFiles.
Variable env : FsEnv.

Definition unwrap_msg : string := "called `Result::unwrap()` on an `Err` value".

(** [fs::create_dir_all(path)] with its error handling. *)
Definition create_dir_all (path : string) : IO bool :=
  emit (CreateDirAll path);;; io_ret (create_dir_all_ok env path).

(** [File::create(path)]. *)
Definition file_create (path : string) : IO bool :=
  emit (FileCreate path);;; io_ret (file_create_ok env path).

(** [writeln!(file, "{}", line)]. *)
Definition writeln (path line : string) : IO bool :=
  emit (WriteLine path line);;; io_ret (writeln_ok env path line).

(** [for line in lines { writeln!(file, "{}", line).unwrap(); }] *)
Fixpoint write_lines_unwrap (path : string) (ls : list string) : IO unit :=
  match ls with
  | [] => io_ret tt
  | line :: rest =>
      ok <- writeln path line;;
      if ok then write_lines_unwrap path rest else panic unwrap_msg
  end.

(** The loop over [prev_text_lines], which logs and returns on error. *)
Fixpoint write_lines_logged (path : string) (ls : list string) : IO unit :=
  match ls with
  | [] => io_ret tt
  | line :: rest =>
      ok <- writeln path line;;
      if ok then write_lines_logged path rest
      else emit (LogError "Failed to write to previous text file");;; early_return
  end.

(** [.map(|record| record.get("text").cloned().unwrap_or_default())] *)
Definition text_lines (json : list LineMap) : list string :=
  map (fun record => match hashmap_get "text" record with Some t => t | None => "" end) json.

Definition save_text_files_body (frame_number : N) (new_text_json current_text_json : list LineMap)
    (previous_text_json : option (list LineMap)) : IO unit :=
  let id := frame_number in
  emit (LogDebug ("Saving text files for frame " ++ string_of_N frame_number));;;
  dir_ok <- create_dir_all "text_json";;
  if negb dir_ok then emit (LogError "Failed to create text_json directory");;; early_return else
  let new_text_lines := text_lines new_text_json in
  let current_text_lines := text_lines current_text_json in
  let new_text_file_path := "text_json/new_text_" ++ string_of_N id ++ ".txt" in
  new_ok <- file_create new_text_file_path;;
  if negb new_ok then emit (LogError "Failed to create new text file");;; early_return else
  write_lines_unwrap new_text_file_path new_text_lines;;;
  let current_text_file_path := "text_json/current_text_" ++ string_of_N id ++ ".txt" in
  cur_ok <- file_create current_text_file_path;;
  if negb cur_ok then emit (LogError "Failed to create current text file");;; early_return else
  write_lines_unwrap current_text_file_path current_text_lines;;;
  match previous_text_json with
  | Some prev_json =>
      let prev_text_lines := text_lines prev_json in
      let prev_text_file_path := "text_json/previous_text_" ++ string_of_N id ++ ".txt" in
      prev_ok <- file_create prev_text_file_path;;
      if negb prev_ok then emit (LogError "Failed to create previous text file");;; early_return else
      write_lines_logged prev_text_file_path prev_text_lines
  | None => io_ret tt
  end.

(** [save_text_files]: the trace of effects, and [None] when the function
    returns normally or [Some msg] when it panics. *)
Definition save_text_files (frame_number : N) (new_text_json current_text_json : list LineMap)
    (previous_text_json : option (list LineMap)) : list Event * option string :=
  match save_text_files_body frame_number new_text_json current_text_json previous_text_json [] with
  | (tr, Panicked msg) => (tr, Some msg)
  | (tr, _) => (tr, None)
  end.
End SaveTextFiles.

(** ** Frame capture *)

(** A window capture: image, title, app name, focus flag. *)
Definition WindowImage := (DynamicImage * string * string * bool)%type.

(** Results of the external calls made by [capture_screenshot]. *)
Record CaptureEnv := mkCaptureEnv {
  monitor_capture_image : RgbaImage + string;
  capture_all_visible_windows : list WindowImage + string;
  elapsed : nat }.

Section Capture.
Variable hash_bytes : list Z -> N.

(** [capture_screenshot]: the log lines and the result. *)
Definition capture_screenshot (env : CaptureEnv)
    : list Event * Outcome (DynamicImage * list WindowImage * N * nat) :=
  match monitor_capture_image env with
  | inr e => ([LogError ("Failed to capture monitor image: " ++ e)], RErr "Monitor capture failed")
  | inl buffer =>
      let image := ImageRgba8 buffer in
      let image_hash := calculate_hash hash_bytes image in
      let capture_duration := elapsed env in
      let '(logs, window_images) :=
        match capture_all_visible_windows env with
        | inl images => ([], images)
        | inr e => ([LogWarn ("Failed to capture window images: " ++ e
                              ++ ". Continuing with empty result.")], [])
        end in
      (logs, ROk (image, window_images, image_hash, capture_duration))
  end.
End Capture.

(** * Properties *)

(** ** Similarity engine *)

(** A mismatch of dimensions survives the luma conversion. *)
Lemma to_luma8_dims (img : DynamicImage) :
  (gray_width (to_luma8 img), gray_height (to_luma8 img)) = dimensions img.
Proof. destruct img; reflexivity. Qed.

Definition ssim_panic_msg : string :=
  "Images had different dimensions: " ++ compare_error_debug DimensionMismatch.

(** [compare_images_ssim] panics on every pair of differently sized images. *)
Lemma compare_images_ssim_mismatch mssim (i1 i2 : DynamicImage) :
  dimensions i1 <> dimensions i2 ->
  compare_images_ssim mssim i1 i2 = Panic ssim_panic_msg.
Proof.
  intros Hd. unfold compare_images_ssim, gray_similarity_structure.
  destruct (Nat.eqb (gray_width (to_luma8 i1)) (gray_width (to_luma8 i2))) eqn:Ew;
  destruct (Nat.eqb (gray_height (to_luma8 i1)) (gray_height (to_luma8 i2))) eqn:Eh;
  try reflexivity.
  apply Nat.eqb_eq in Ew, Eh. exfalso. apply Hd.
  rewrite <- (to_luma8_dims i1), <- (to_luma8_dims i2), Ew, Eh. reflexivity.
Qed.

(** A blank RGBA image of the given size. *)
Definition blank_image (w h : nat) : DynamicImage :=
  ImageRgba8 (mkRgba w h (repeat 0%Z (4 * w * h))).

(** [gray_similarity_histogram] whose metric is the constant [d]: like the
    crate's function it rejects inputs of different dimensions first. *)
Definition const_histogram (d : Q) : GrayImage -> GrayImage -> Q + CompareError :=
  fun a b =>
    if andb (Nat.eqb (gray_width a) (gray_width b)) (Nat.eqb (gray_height a) (gray_height b))
    then inl d else inr DimensionMismatch.

(** C1 (code_bug).  Comparing a 100x100 frame with a 50x50 frame,
    [compare_images_ssim] panics through [expect] instead of returning the
    [DimensionMismatch] condition as an error the caller could branch on.
    (Inside [compare_with_previous_image] the histogram step, which rejects
    differing dimensions first, returns [Err] before this call is reached;
    the panic concerns every other caller of this public function.) *)
Theorem compare_images_ssim_panics_on_mismatch (mssim : GrayImage -> GrayImage -> Q) :
  compare_images_ssim mssim (blank_image 100 100) (blank_image 50 50) = Panic ssim_panic_msg.
Proof. apply compare_images_ssim_mismatch; discriminate. Qed.

(** [compare_with_previous_image] never writes its two [&mut] parameters. *)
Lemma compare_with_previous_image_state hist mssim prev cur ma fn mv :
  snd (compare_with_previous_image hist mssim prev cur ma fn mv) = mv /\
  snd (fst (compare_with_previous_image hist mssim prev cur ma fn mv)) = ma.
Proof.
  unfold compare_with_previous_image.
  destruct prev as [p|]; [|split; reflexivity].
  destruct (compare_images_histogram hist p cur); [|split; reflexivity..].
  destruct (compare_images_ssim mssim p cur); split; reflexivity.
Qed.

Definition one_pixel : DynamicImage := ImageRgba8 (mkRgba 1 1 [0; 0; 0; 255]%Z).

(** C2 (counterexample).  Frame 5 with no prior [MaxAverageFrame] (first
    branch of the claim), and frame 5 whose score 1/2 exceeds the running
    maximum 0 (second branch): in both cases the tracked [max_average] is
    still [None] after the call, not [Some {frame_number = 5}]. *)
Lemma compare_with_previous_image_no_update_cex :
  snd (fst (compare_with_previous_image (const_histogram 0) (fun _ _ => 1%Q)
              None one_pixel None 5 0)) <> Some (mkMaxAverageFrame 5) /\
  fst (fst (compare_with_previous_image (const_histogram 1) (fun _ _ => 1%Q)
              (Some one_pixel) one_pixel None 5 0)) = ROk (1 # 2)%Q /\
  (0 < 1 # 2)%Q /\
  snd (fst (compare_with_previous_image (const_histogram 1) (fun _ _ => 1%Q)
              (Some one_pixel) one_pixel None 5 0)) <> Some (mkMaxAverageFrame 5).
Proof.
  vm_compute. repeat split; try discriminate; reflexivity.
Qed.

(** C2 (amended).  [compare_with_previous_image] leaves the tracked
    [MaxAverageFrame] and the running maximum exactly as it received them,
    on every input and every exit (success, error or panic); it only reads
    [max_average] for its debug line.  Replacing the tracked frame is left
    to the caller. *)
Theorem compare_with_previous_image_preserves_max hist mssim prev cur ma fn mv :
  snd (fst (compare_with_previous_image hist mssim prev cur ma fn mv)) = ma /\
  snd (compare_with_previous_image hist mssim prev cur ma fn mv) = mv.
Proof.
  destruct (compare_with_previous_image_state hist mssim prev cur ma fn mv) as [H1 H2].
  split; assumption.
Qed.

(** C4.  With a previous image, a returned score is
    [(histogram_diff + (1 - ssim)) / 2] of the two comparisons, which both
    succeeded; without a previous image the call returns exactly [0] for
    any comparison functions (none is consulted), and no error. *)
Theorem compare_with_previous_image_score hist mssim prev cur ma fn mv v
  (Hr : fst (fst (compare_with_previous_image hist mssim (Some prev) cur ma fn mv)) = ROk v) :
  (exists h s, compare_images_histogram hist prev cur = ROk h /\
               compare_images_ssim mssim prev cur = Ret s /\
               v = ((h + (1 - s)) / 2)%Q) /\
  compare_with_previous_image hist mssim None cur ma fn mv = (ROk 0%Q, ma, mv).
Proof.
  split; [|reflexivity].
  revert Hr. unfold compare_with_previous_image.
  destruct (compare_images_histogram hist prev cur) as [h| |]; simpl; try discriminate.
  destruct (compare_images_ssim mssim prev cur) as [s|]; simpl; try discriminate.
  intros Hr. injection Hr as <-. exists h, s. auto.
Qed.

Lemma compare_with_previous_image_score_witness :
  fst (fst (compare_with_previous_image (const_histogram 1) (fun _ _ => 1%Q)
              (Some one_pixel) one_pixel None 3 0)) = ROk (1 / 2)%Q /\
  ((exists h s, compare_images_histogram (const_histogram 1) one_pixel one_pixel = ROk h /\
                compare_images_ssim (fun _ _ => 1%Q) one_pixel one_pixel = Ret s /\
                (1 / 2)%Q = ((h + (1 - s)) / 2)%Q) /\
   compare_with_previous_image (const_histogram 1) (fun _ _ => 1%Q) None one_pixel None 3 0
   = (ROk 0%Q, None, 0%Q)).
Proof.
  split; [vm_compute; reflexivity|].
  apply (compare_with_previous_image_score (const_histogram 1) (fun _ _ => 1%Q)
           one_pixel one_pixel None 3 0 (1 / 2)%Q).
  vm_compute; reflexivity.
Defined.

(** ** OCR reconstruction *)

(** The four rows of the spec's grouping example: a line row (level 4,
    word 0), two word rows (level 5) and the next line row. *)
Definition hello_world_tokens : list Data :=
  [mkData 4 1 1 1 1 0 (-1) "";
   mkData 5 1 1 1 1 1 90 "hello";
   mkData 5 1 1 1 1 2 80 "world";
   mkData 4 1 1 1 2 0 (-1) ""].

(** C3.  On the example stream the reconstructor emits exactly one record,
    with text ["hello world"] and confidence ["85.00"].  In general, from any
    loop state whose [last_word_num] is a (non-negative) word ordinal, a
    row with [word_num = 0] finalizes the text accumulator into a record
    exactly when it is non-empty, resets the accumulator in that case, and
    adds no text of its own. *)
Theorem data_output_to_json_line_boundary (st : JsonState) (record : Data)
  (Hlast : (0 <= last_word_num st)%Z) (Hw : word_num record = 0%Z) :
  (List.length (data_output_to_json hello_world_tokens) = 1%nat /\
   map (hashmap_get "text") (data_output_to_json hello_world_tokens) = [Some "hello world"] /\
   map (hashmap_get "confidence") (data_output_to_json hello_world_tokens) = [Some "85.00"]) /\
  json_step st record =
    if is_empty (current_line st) then
      mkJsonState (lines st) (current_line st) (current_conf st) (word_count st) 0 (divisors st)
    else
      mkJsonState ((lines st ++ [[("text", current_line st);
                                  ("confidence", fmt2 (avg_conf_of st));
                                  ("line_position", line_position record)]])%list)
                  "" 0 0 0 ((divisors st ++ [word_count st])%list).
Proof.
  split; [vm_compute; repeat split; reflexivity|].
  unfold json_step, boundary_step, word_step. rewrite Hw. simpl Z.eqb. cbv iota.
  destruct (is_empty (current_line st)); simpl.
  - replace (Z.ltb (last_word_num st) 0) with false by (symmetry; apply Z.ltb_ge; exact Hlast).
    reflexivity.
  - replace (Z.ltb (last_word_num st) 0) with false by (symmetry; apply Z.ltb_ge; exact Hlast).
    reflexivity.
Qed.

Lemma data_output_to_json_line_boundary_witness :
  (0 <= last_word_num init_state)%Z /\ word_num (mkData 4 1 1 1 1 0 (-1) "") = 0%Z /\
  json_step init_state (mkData 4 1 1 1 1 0 (-1) "")
  = mkJsonState [] "" 0 0 0 [].
Proof.
  split; [vm_compute; discriminate|]. split; [reflexivity|].
  destruct (data_output_to_json_line_boundary init_state (mkData 4 1 1 1 1 0 (-1) ""))
    as [_ H]; [vm_compute; discriminate|reflexivity|].
  rewrite H. reflexivity.
Defined.

(** C5 (code_bug).  A stream whose last line has no closing [word_num = 0]
    row: the trailing record is emitted, but the flush after the loop
    inserts only ["text"] and ["confidence"]; the ["line_position"] key,
    which the in-loop finalization inserts, is absent. *)
Theorem data_output_to_json_trailing_record_lacks_position :
  data_output_to_json [mkData 5 1 1 1 1 1 90 "hello"]
  = [[("text", "hello"); ("confidence", "90.00")]] /\
  map (hashmap_get "line_position") (data_output_to_json [mkData 5 1 1 1 1 1 90 "hello"])
  = [None].
Proof. split; vm_compute; reflexivity. Qed.

(** A word row with empty text, a line row, then a one-word line. *)
Definition carry_over_tokens : list Data :=
  [mkData 5 1 1 1 1 1 50 "";
   mkData 4 1 1 1 2 0 (-1) "";
   mkData 5 1 1 1 2 1 90 "a";
   mkData 4 1 1 1 3 0 (-1) ""].

(** C6 (code_bug).  On [carry_over_tokens] the only record is the line
    ["a"], whose single contributing word has confidence 90, but the record
    carries ["70.00"]: the empty-text word of the previous line left
    [current_conf = 50] and [word_count = 1] behind, because the reset only
    happens when [current_line] is non-empty. *)
Theorem data_output_to_json_confidence_carry_over :
  map (hashmap_get "text") (data_output_to_json carry_over_tokens) = [Some "a"] /\
  map (hashmap_get "confidence") (data_output_to_json carry_over_tokens) = [Some "70.00"] /\
  fmt2 90 = "90.00".
Proof. vm_compute. repeat split; reflexivity. Qed.

Lemma string_app_assoc (a b c : string) : a ++ b ++ c = (a ++ b) ++ c.
Proof. induction a as [|ch a IH]; simpl; [reflexivity|now rewrite IH]. Qed.

Lemma is_empty_app_r (a b : string) : is_empty b = false -> is_empty (a ++ b) = false.
Proof. destruct a; simpl; auto. Qed.

Lemma is_empty_true (s : string) : is_empty s = true -> s = "".
Proof. destruct s; simpl; congruence. Qed.

Definition nonempty_texts (data : list Data) : list string :=
  filter (fun s => negb (is_empty s)) (map text data).

(** The loop of [data_output_to_text] from any buffer [text_acc]. *)
Lemma data_output_to_text_fold (data : list Data) (text_acc : string) :
  fold_left
    (fun text_acc record =>
       if negb (is_empty (text record)) then
         (if negb (is_empty text_acc) then text_acc ++ " " else text_acc) ++ text record
       else text_acc)
    data text_acc
  = if is_empty text_acc then String.concat " " (nonempty_texts data)
    else match nonempty_texts data with
         | [] => text_acc
         | _ => text_acc ++ " " ++ String.concat " " (nonempty_texts data)
         end.
Proof.
  revert text_acc. induction data as [|r data IH]; intros text_acc; simpl.
  - destruct (is_empty text_acc) eqn:E; [now rewrite (is_empty_true _ E)|reflexivity].
  - unfold nonempty_texts in *. simpl.
    destruct (is_empty (text r)) eqn:Er; simpl; [apply IH|].
    rewrite IH, is_empty_app_r by exact Er.
    remember (filter (fun s => negb (is_empty s)) (map text data)) as xs eqn:Exs.
    clear IH Exs.
    destruct (is_empty text_acc) eqn:Ea; simpl.
    + rewrite (is_empty_true _ Ea). simpl. destruct xs; reflexivity.
    + destruct xs as [|x xs]; rewrite <- !string_app_assoc; reflexivity.
Qed.

(** C7.  The flattened text is the non-empty texts of the OCR rows, in
    order, joined by single spaces ([String.concat " "] puts a separator
    only between two items, none before the first or after the last); the
    empty stream gives the empty string. *)
Theorem data_output_to_text_join (data : list Data) :
  data_output_to_text data = String.concat " " (nonempty_texts data) /\
  data_output_to_text [] = "".
Proof.
  split; [|reflexivity].
  unfold data_output_to_text. rewrite data_output_to_text_fold. reflexivity.
Qed.

(** Loop invariant of [data_output_to_json]: every division so far had a
    positive divisor, and a non-empty [current_line] has a positive
    [word_count]. *)
Definition json_inv (st : JsonState) : Prop :=
  Forall (fun n => (1 <= n)%nat) (divisors st) /\
  (is_empty (current_line st) = false -> (1 <= word_count st)%nat).

Lemma json_inv_init : json_inv init_state.
Proof. split; [constructor|discriminate]. Qed.

Lemma json_inv_boundary st record : json_inv st -> json_inv (boundary_step st record).
Proof.
  intros [Hd Hw]. unfold boundary_step.
  destruct (Z.eqb (word_num record) 0); simpl; [|split; assumption].
  destruct (is_empty (current_line st)) eqn:E; simpl.
  - split; [exact Hd|]. intros H. rewrite E in H. discriminate.
  - split; simpl; [|discriminate].
    apply Forall_app. split; [exact Hd|]. constructor; [apply Hw; reflexivity|constructor].
Qed.

Lemma json_inv_word st record : json_inv st -> json_inv (word_step st record).
Proof.
  intros [Hd Hw]. unfold word_step.
  destruct (Z.ltb (last_word_num st) (word_num record)); simpl; [|split; assumption].
  split; simpl; [exact Hd|]. intros _. lia.
Qed.

Lemma json_inv_step st record : json_inv st -> json_inv (json_step st record).
Proof.
  intros H. pose proof (json_inv_word _ record (json_inv_boundary st record H)) as [Hd Hw].
  split; assumption.
Qed.

Lemma json_inv_fold data st : json_inv st -> json_inv (fold_left json_step data st).
Proof.
  revert st. induction data as [|r data IH]; intros st H; simpl; auto.
  apply IH, json_inv_step, H.
Qed.

(** C10.  Over the whole run of [data_output_to_json], loop and trailing
    flush included, every [current_conf / word_count as f32] is evaluated
    with [word_count >= 1]. *)
Theorem data_output_to_json_no_zero_division (data : list Data) :
  Forall (fun n => (1 <= n)%nat) (divisors (json_run data)).
Proof.
  unfold json_run. pose proof (json_inv_fold data init_state json_inv_init) as [Hd Hw].
  unfold json_flush. destruct (is_empty (current_line _)) eqn:E; simpl; [exact Hd|].
  apply Forall_app. split; [exact Hd|]. constructor; [apply Hw; reflexivity|constructor].
Qed.

(** ** Text persistence *)

Definition new_file_path_7 : string := "text_json/new_text_7.txt".

(** Every file-system call succeeds except creating the new-text file. *)
Definition env_new_create_fails : FsEnv :=
  mkFsEnv (fun _ => true) (fun p => negb (String.eqb p new_file_path_7)) (fun _ _ => true).

(** Every file-system call succeeds except writing a line of the new-text file. *)
Definition env_new_write_fails : FsEnv :=
  mkFsEnv (fun _ => true) (fun _ => true) (fun p _ => negb (String.eqb p new_file_path_7)).

(** C8 (code_bug).  Frame 7 with one record per category.  When creating
    [new_text_7.txt] fails, the error is logged and the function returns:
    the current and previous files are never created.  When writing a line
    of [new_text_7.txt] fails, [writeln!(..).unwrap()] panics instead of
    logging, again before the other files are attempted. *)
Theorem save_text_files_failure_short_circuits :
  save_text_files env_new_create_fails 7 [[("text", "n")]] [[("text", "c")]]
    (Some [[("text", "p")]])
  = ([LogDebug "Saving text files for frame 7"; CreateDirAll "text_json";
      FileCreate new_file_path_7; LogError "Failed to create new text file"], None) /\
  save_text_files env_new_write_fails 7 [[("text", "n")]] [[("text", "c")]]
    (Some [[("text", "p")]])
  = ([LogDebug "Saving text files for frame 7"; CreateDirAll "text_json";
      FileCreate new_file_path_7; WriteLine new_file_path_7 "n"], Some unwrap_msg).
Proof. split; vm_compute; reflexivity. Qed.

(** ** Frame capture *)

(** C9.  A failed monitor capture makes [capture_screenshot] return an
    error.  A failed window capture after a successful monitor capture is
    logged as a warning, and the call still returns [Ok] with the monitor
    image, its [calculate_hash] and an empty list of window images. *)
Theorem capture_screenshot_partial_failure (hash_bytes : list Z -> N) (env : CaptureEnv) :
  (forall e, monitor_capture_image env = inr e ->
     snd (capture_screenshot hash_bytes env) = RErr "Monitor capture failed") /\
  (forall buffer e, monitor_capture_image env = inl buffer ->
     capture_all_visible_windows env = inr e ->
     capture_screenshot hash_bytes env
     = ([LogWarn ("Failed to capture window images: " ++ e ++ ". Continuing with empty result.")],
        ROk (ImageRgba8 buffer, [], calculate_hash hash_bytes (ImageRgba8 buffer), elapsed env))).
Proof.
  unfold capture_screenshot. split.
  - intros e He. rewrite He. reflexivity.
  - intros buffer e Hb Hw. rewrite Hb, Hw. reflexivity.
Qed.

Definition env_monitor_fails : CaptureEnv :=
  mkCaptureEnv (inr "no display") (inl []) 3.

Definition env_windows_fail : CaptureEnv :=
  mkCaptureEnv (inl (mkRgba 1 1 [0; 0; 0; 255]%Z)) (inr "denied") 3.

Lemma capture_screenshot_partial_failure_witness :
  snd (capture_screenshot (fun _ => 0%N) env_monitor_fails) = RErr "Monitor capture failed" /\
  capture_screenshot (fun _ => 0%N) env_windows_fail
  = ([LogWarn ("Failed to capture window images: " ++ "denied" ++ ". Continuing with empty result.")],
     ROk (ImageRgba8 (mkRgba 1 1 [0; 0; 0; 255]%Z), [],
          calculate_hash (fun _ => 0%N) (ImageRgba8 (mkRgba 1 1 [0; 0; 0; 255]%Z)), 3%nat)).
Proof.
  split.
  - apply (proj1 (capture_screenshot_partial_failure (fun _ => 0%N) env_monitor_fails) "no display").
    reflexivity.
  - apply (proj2 (capture_screenshot_partial_failure (fun _ => 0%N) env_windows_fail)
             (mkRgba 1 1 [0; 0; 0; 255]%Z) "denied"); reflexivity.
Defined.

(** * Further properties of the module *)

(** ** OCR reconstruction *)

Lemma is_empty_app (a b : string) : is_empty (a ++ b) = andb (is_empty a) (is_empty b).
Proof. destruct a; reflexivity. Qed.

(** Shape of a record finalized inside the loop. *)
Definition full_record (r : LineMap) : Prop :=
  (exists t, hashmap_get "text" r = Some t /\ is_empty t = false) /\
  hashmap_get "confidence" r <> None /\
  hashmap_get "line_position" r <> None.

Lemma full_record_fold data st :
  Forall full_record (lines st) -> Forall full_record (lines (fold_left json_step data st)).
Proof.
  revert st. induction data as [|r data IH]; intros st H; simpl; [exact H|].
  apply IH. unfold json_step, word_step, boundary_step.
  destruct (Z.eqb (word_num r) 0); simpl.
  - destruct (is_empty (current_line st)) eqn:E; simpl.
    + destruct (Z.ltb (last_word_num st) (word_num r)); exact H.
    + destruct (Z.ltb (last_word_num st) (word_num r)); simpl;
      (apply Forall_app; split; [exact H|constructor; [|constructor]]);
      (split; [exists (current_line st); split; [reflexivity|exact E]|
               split; discriminate]).
  - destruct (Z.ltb (last_word_num st) (word_num r)); exact H.
Qed.

(** X1.  Every record of [data_output_to_json] has a non-empty ["text"]
    and a ["confidence"]; all of them except possibly the last one (the
    flush after the loop) also have a ["line_position"]. *)
Theorem data_output_to_json_record_shape (data : list Data) :
  Forall (fun r => (exists t, hashmap_get "text" r = Some t /\ is_empty t = false) /\
                   hashmap_get "confidence" r <> None) (data_output_to_json data) /\
  exists recs tail, data_output_to_json data = (recs ++ tail)%list /\
                    (List.length tail <= 1)%nat /\ Forall full_record recs.
Proof.
  pose proof (full_record_fold data init_state (Forall_nil _)) as H.
  unfold data_output_to_json, json_run, json_flush.
  destruct (is_empty (current_line (fold_left json_step data init_state))) eqn:E; simpl.
  - split.
    + eapply Forall_impl; [|exact H]. intros r [Ht [Hc _]]. split; assumption.
    + exists (lines (fold_left json_step data init_state)), []. rewrite app_nil_r.
      repeat split; [simpl; lia|exact H].
  - split.
    + apply Forall_app. split.
      * eapply Forall_impl; [|exact H]. intros r [Ht [Hc _]]. split; assumption.
      * constructor; [|constructor]. split; [|discriminate].
        exists (current_line (fold_left json_step data init_state)). split; [reflexivity|exact E].
    + eexists _, _. split; [reflexivity|]. split; [simpl; lia|exact H].
Qed.

Definition nonempty_count (data : list Data) : nat :=
  List.length (filter (fun r => negb (is_empty (text r))) data).

Definition line_open (st : JsonState) : nat := if is_empty (current_line st) then 0 else 1.

Lemma boundary_step_count st r :
  (List.length (lines (boundary_step st r)) + line_open (boundary_step st r)
   <= List.length (lines st) + line_open st)%nat.
Proof.
  unfold boundary_step, line_open.
  destruct (Z.eqb (word_num r) 0); [|lia].
  destruct (is_empty (current_line st)) eqn:E; simpl; [rewrite E; lia|].
  rewrite length_app. simpl. lia.
Qed.

Lemma word_step_count st r :
  (List.length (lines (word_step st r)) + line_open (word_step st r)
   <= List.length (lines st) + line_open st + (if is_empty (text r) then 0 else 1))%nat.
Proof.
  unfold word_step, line_open.
  destruct (Z.ltb (last_word_num st) (word_num r)); simpl; [|lia].
  destruct (current_line st) as [|c s]; destruct (text r) as [|c' s']; simpl; lia.
Qed.

Lemma json_step_count st r :
  (List.length (lines (json_step st r)) + line_open (json_step st r)
   <= List.length (lines st) + line_open st + (if is_empty (text r) then 0 else 1))%nat.
Proof.
  pose proof (boundary_step_count st r). pose proof (word_step_count (boundary_step st r) r).
  unfold json_step, line_open in *. simpl. lia.
Qed.

Lemma json_fold_count data st :
  (List.length (lines (fold_left json_step data st)) + line_open (fold_left json_step data st)
   <= List.length (lines st) + line_open st + nonempty_count data)%nat.
Proof.
  revert st. induction data as [|r data IH]; intros st; simpl; [unfold nonempty_count; simpl; lia|].
  specialize (IH (json_step st r)). pose proof (json_step_count st r) as Hs.
  unfold nonempty_count in *. simpl.
  destruct (is_empty (text r)); simpl in *; lia.
Qed.

(** X2.  [data_output_to_json] emits at most one record per row with
    non-empty text; in particular a stream whose rows all have empty text
    (the empty stream included) yields no record. *)
Theorem data_output_to_json_length_bound (data : list Data) :
  (List.length (data_output_to_json data) <= nonempty_count data)%nat.
Proof.
  pose proof (json_fold_count data init_state) as H. simpl in H.
  unfold data_output_to_json, json_run, json_flush. unfold line_open in H.
  destruct (is_empty (current_line (fold_left json_step data init_state))); simpl;
  [lia|rewrite length_app; simpl; lia].
Qed.

(** X3.  A row that is not a line row ([word_num <> 0]) and whose word
    number does not exceed the previous row's is dropped: it only updates
    [last_word_num], leaving text, confidence sum, word count and output
    untouched. *)
Theorem json_step_skips_non_increasing (st : JsonState) (record : Data)
  (Hw : word_num record <> 0%Z) (Hle : (word_num record <= last_word_num st)%Z) :
  json_step st record
  = mkJsonState (lines st) (current_line st) (current_conf st) (word_count st)
                (word_num record) (divisors st).
Proof.
  unfold json_step, word_step, boundary_step.
  replace (Z.eqb (word_num record) 0) with false by (symmetry; apply Z.eqb_neq; exact Hw).
  replace (Z.ltb (last_word_num st) (word_num record)) with false
    by (symmetry; apply Z.ltb_ge; exact Hle).
  reflexivity.
Qed.

Lemma json_step_skips_non_increasing_witness :
  word_num (mkData 5 1 1 1 1 1 70 "dup") <> 0%Z /\
  (word_num (mkData 5 1 1 1 1 1 70 "dup") <= last_word_num (mkJsonState [] "a" 90 1 2 []))%Z /\
  json_step (mkJsonState [] "a" 90 1 2 []) (mkData 5 1 1 1 1 1 70 "dup")
  = mkJsonState [] "a" 90 1 1 [].
Proof.
  split; [discriminate|]. split; [vm_compute; discriminate|].
  apply (json_step_skips_non_increasing (mkJsonState [] "a" 90 1 2 []) (mkData 5 1 1 1 1 1 70 "dup"));
  [discriminate|vm_compute; discriminate].
Defined.

Lemma is_empty_concat_cons (x : string) (xs : list string) :
  is_empty x = false -> is_empty (String.concat " " (x :: xs)) = false.
Proof.
  intros Hx. destruct xs; simpl; [exact Hx|]. rewrite is_empty_app, Hx. reflexivity.
Qed.

Lemma data_output_to_text_concat (data : list Data) :
  data_output_to_text data = String.concat " " (nonempty_texts data).
Proof. unfold data_output_to_text. rewrite data_output_to_text_fold. reflexivity. Qed.

(** X4.  The flattened text of two consecutive chunks of rows is the text
    of each chunk, joined by one space when both are non-empty. *)
Theorem data_output_to_text_app (d1 d2 : list Data) :
  data_output_to_text (d1 ++ d2)
  = let t1 := data_output_to_text d1 in
    let t2 := data_output_to_text d2 in
    if is_empty t1 then t2 else if is_empty t2 then t1 else t1 ++ " " ++ t2.
Proof.
  cbv zeta. unfold data_output_to_text at 1. rewrite fold_left_app.
  change (fold_left _ d1 "") with (data_output_to_text d1).
  rewrite data_output_to_text_fold. rewrite (data_output_to_text_concat d2).
  destruct (is_empty (data_output_to_text d1)) eqn:E1; [reflexivity|].
  destruct (nonempty_texts d2) as [|x xs] eqn:Ex; [reflexivity|].
  assert (Hx : is_empty x = false).
  { assert (Hin : In x (nonempty_texts d2)) by (rewrite Ex; left; reflexivity).
    unfold nonempty_texts in Hin. apply filter_In in Hin as [_ Hin].
    destruct (is_empty x); [discriminate|reflexivity]. }
  rewrite (is_empty_concat_cons x xs Hx). reflexivity.
Qed.

(** ** Similarity engine *)

(** X5.  [compare_images_ssim] panics exactly when the two images differ in
    width or height; otherwise it returns the MSSIM score of their luma
    versions. *)
Theorem compare_images_ssim_by_dimensions mssim (i1 i2 : DynamicImage) :
  compare_images_ssim mssim i1 i2
  = if andb (Nat.eqb (fst (dimensions i1)) (fst (dimensions i2)))
            (Nat.eqb (snd (dimensions i1)) (snd (dimensions i2)))
    then Ret (mssim (to_luma8 i1) (to_luma8 i2))
    else Panic ssim_panic_msg.
Proof.
  destruct i1 as [b1], i2 as [b2].
  unfold compare_images_ssim, gray_similarity_structure. simpl.
  destruct (andb _ _); reflexivity.
Qed.

(** X6.  When the previous frame (if any) has the dimensions of the current
    one, [compare_with_previous_image] does not panic, and an [Err] it
    returns is the error of [compare_images_histogram] on the two frames. *)
Theorem compare_with_previous_image_errors hist mssim prev cur ma fn mv
  (Hdim : forall p, prev = Some p -> dimensions p = dimensions cur) :
  match fst (fst (compare_with_previous_image hist mssim prev cur ma fn mv)) with
  | RPanic _ => False
  | RErr e => exists p, prev = Some p /\ compare_images_histogram hist p cur = RErr e
  | ROk _ => True
  end.
Proof.
  unfold compare_with_previous_image.
  destruct prev as [p|]; [|exact I].
  specialize (Hdim p eq_refl).
  destruct (compare_images_histogram hist p cur) as [h|e|m] eqn:Eh; simpl.
  - rewrite compare_images_ssim_by_dimensions, Hdim, !Nat.eqb_refl. exact I.
  - exists p. split; [reflexivity|exact Eh].
  - unfold compare_images_histogram in Eh.
    destruct (hist (to_luma8 p) (to_luma8 cur)); discriminate.
Qed.

Lemma compare_with_previous_image_errors_witness :
  (forall p, Some one_pixel = Some p -> dimensions p = dimensions one_pixel) /\
  match fst (fst (compare_with_previous_image (fun _ _ => inr DimensionMismatch) (fun _ _ => 1%Q)
                    (Some one_pixel) one_pixel None 2 0)) with
  | RPanic _ => False
  | RErr e => exists p, Some one_pixel = Some p /\
                compare_images_histogram (fun _ _ => inr DimensionMismatch) p one_pixel = RErr e
  | ROk _ => True
  end.
Proof.
  assert (H : forall p, Some one_pixel = Some p -> dimensions p = dimensions one_pixel)
    by (intros p Hp; injection Hp as <-; reflexivity).
  split; [exact H|].
  apply (compare_with_previous_image_errors (fun _ _ => inr DimensionMismatch) (fun _ _ => 1%Q)
           (Some one_pixel) one_pixel None 2 0 H).
Defined.

(** ** Frame capture *)

(** X7.  [capture_screenshot] returns [Ok] exactly when the monitor capture
    succeeds; when the window capture succeeds too, nothing is logged and
    the captured window images are returned unchanged beside the monitor
    image and its hash. *)
Theorem capture_screenshot_success (hash_bytes : list Z -> N) (env : CaptureEnv) :
  (forall buffer images, monitor_capture_image env = inl buffer ->
     capture_all_visible_windows env = inl images ->
     capture_screenshot hash_bytes env
     = ([], ROk (ImageRgba8 buffer, images, calculate_hash hash_bytes (ImageRgba8 buffer),
                 elapsed env))) /\
  ((exists x, snd (capture_screenshot hash_bytes env) = ROk x) <->
   (exists buffer, monitor_capture_image env = inl buffer)).
Proof.
  unfold capture_screenshot. split.
  - intros buffer images Hb Hw. rewrite Hb, Hw. reflexivity.
  - destruct (monitor_capture_image env) as [buffer|e]; split.
    + intros _. exists buffer. reflexivity.
    + intros _. destruct (capture_all_visible_windows env); eexists; reflexivity.
    + intros [x Hx]. discriminate.
    + intros [b Hb]. discriminate.
Qed.

Definition env_all_ok : CaptureEnv :=
  mkCaptureEnv (inl (mkRgba 1 1 [0; 0; 0; 255]%Z)) (inl []) 4.

Lemma capture_screenshot_success_witness :
  capture_screenshot (fun _ => 1%N) env_all_ok
  = ([], ROk (ImageRgba8 (mkRgba 1 1 [0; 0; 0; 255]%Z), [],
              calculate_hash (fun _ => 1%N) (ImageRgba8 (mkRgba 1 1 [0; 0; 0; 255]%Z)), 4%nat)).
Proof.
  apply (proj1 (capture_screenshot_success (fun _ => 1%N) env_all_ok)); reflexivity.
Defined.

(** ** Text persistence *)

Lemma write_lines_unwrap_ok env path ls tr
  (Hw : forall l, writeln_ok env path l = true) :
  write_lines_unwrap env path ls tr = ((tr ++ map (WriteLine path) ls)%list, Next tt).
Proof.
  revert tr. induction ls as [|l ls IH]; intros tr; simpl; [now rewrite app_nil_r|].
  unfold io_bind, writeln, emit, io_ret. simpl. rewrite Hw, IH, <- app_assoc. reflexivity.
Qed.

Lemma write_lines_logged_ok env path ls tr
  (Hw : forall l, writeln_ok env path l = true) :
  write_lines_logged env path ls tr = ((tr ++ map (WriteLine path) ls)%list, Next tt).
Proof.
  revert tr. induction ls as [|l ls IH]; intros tr; simpl; [now rewrite app_nil_r|].
  unfold io_bind, writeln, emit, io_ret. simpl. rewrite Hw, IH, <- app_assoc. reflexivity.
Qed.

Lemma write_lines_logged_no_panic env path ls tr :
  exists tr', write_lines_logged env path ls tr = (tr', Next tt) \/
              write_lines_logged env path ls tr = (tr', Return).
Proof.
  revert tr. induction ls as [|l ls IH]; intros tr; simpl; [eexists; left; reflexivity|].
  unfold io_bind, writeln, emit, io_ret. simpl.
  destruct (writeln_ok env path l); [apply IH|].
  simpl. eexists; right; reflexivity.
Qed.

Definition new_text_path (id : N) : string := "text_json/new_text_" ++ string_of_N id ++ ".txt".
Definition current_text_path (id : N) : string :=
  "text_json/current_text_" ++ string_of_N id ++ ".txt".
Definition previous_text_path (id : N) : string :=
  "text_json/previous_text_" ++ string_of_N id ++ ".txt".

(** X8.  On a file system where every operation succeeds, [save_text_files]
    creates the directory, then the new-text file with one line per record
    (its ["text"], or the empty string when the key is missing), then the
    current-text file likewise, then, when [previous_text_json] is present,
    the previous-text file; and it returns normally. *)
Theorem save_text_files_all_ok env n nj cj pj
  (Hd : forall p, create_dir_all_ok env p = true)
  (Hc : forall p, file_create_ok env p = true)
  (Hw : forall p l, writeln_ok env p l = true) :
  save_text_files env n nj cj pj
  = ([LogDebug ("Saving text files for frame " ++ string_of_N n); CreateDirAll "text_json";
      FileCreate (new_text_path n)] ++ map (WriteLine (new_text_path n)) (text_lines nj)
     ++ [FileCreate (current_text_path n)] ++ map (WriteLine (current_text_path n)) (text_lines cj)
     ++ match pj with
        | Some p => FileCreate (previous_text_path n)
                      :: map (WriteLine (previous_text_path n)) (text_lines p)
        | None => []
        end, None)%list.
Proof.
  cbv [save_text_files save_text_files_body io_bind emit io_ret create_dir_all file_create
       early_return].
  rewrite !Hd. cbn -[write_lines_unwrap write_lines_logged text_lines string_of_N].
  rewrite !Hc. cbn -[write_lines_unwrap write_lines_logged text_lines string_of_N].
  rewrite write_lines_unwrap_ok by auto.
  cbn -[write_lines_unwrap write_lines_logged text_lines string_of_N].
  rewrite write_lines_unwrap_ok by auto.
  cbn -[write_lines_unwrap write_lines_logged text_lines string_of_N].
  destruct pj as [p|].
  - cbn -[write_lines_unwrap write_lines_logged text_lines string_of_N].
    rewrite ?Hc. cbn -[write_lines_unwrap write_lines_logged text_lines string_of_N].
    rewrite write_lines_logged_ok by auto.
    unfold new_text_path, current_text_path, previous_text_path.
    simpl. repeat rewrite <- app_assoc. simpl. reflexivity.
  - unfold new_text_path, current_text_path.
    simpl. repeat rewrite <- app_assoc. simpl. rewrite !app_nil_r. reflexivity.
Qed.

Definition fs_all_ok : FsEnv := mkFsEnv (fun _ => true) (fun _ => true) (fun _ _ => true).

Lemma save_text_files_all_ok_witness :
  save_text_files fs_all_ok 3 [[("text", "a")]; [("confidence", "1.00")]] [] None
  = ([LogDebug "Saving text files for frame 3"; CreateDirAll "text_json";
      FileCreate "text_json/new_text_3.txt"; WriteLine "text_json/new_text_3.txt" "a";
      WriteLine "text_json/new_text_3.txt" ""; FileCreate "text_json/current_text_3.txt"], None).
Proof.
  rewrite (save_text_files_all_ok fs_all_ok 3 [[("text", "a")]; [("confidence", "1.00")]] [] None)
    by reflexivity.
  reflexivity.
Defined.

(** X9.  When creating the [text_json] directory fails, [save_text_files]
    logs the failure and returns normally without creating or writing any
    file. *)
Theorem save_text_files_dir_failure env n nj cj pj
  (Hd : create_dir_all_ok env "text_json" = false) :
  save_text_files env n nj cj pj
  = ([LogDebug ("Saving text files for frame " ++ string_of_N n); CreateDirAll "text_json";
      LogError "Failed to create text_json directory"], None).
Proof.
  cbv [save_text_files save_text_files_body io_bind emit io_ret create_dir_all early_return].
  rewrite Hd. reflexivity.
Qed.

Lemma save_text_files_dir_failure_witness :
  save_text_files (mkFsEnv (fun _ => false) (fun _ => true) (fun _ _ => true)) 1 [] [] None
  = ([LogDebug "Saving text files for frame 1"; CreateDirAll "text_json";
      LogError "Failed to create text_json directory"], None).
Proof.
  apply (save_text_files_dir_failure (mkFsEnv (fun _ => false) (fun _ => true) (fun _ _ => true))
           1 [] [] None); reflexivity.
Defined.

(** X10.  [save_text_files] panics only through the [unwrap] of a write to
    the new-text or current-text file: when those writes succeed, it
    returns normally whatever else fails (directory, file creation, or
    writes to the previous-text file, which are logged). *)
Theorem save_text_files_no_panic env n nj cj pj
  (Hnew : forall l, writeln_ok env (new_text_path n) l = true)
  (Hcur : forall l, writeln_ok env (current_text_path n) l = true) :
  snd (save_text_files env n nj cj pj) = None.
Proof.
  cbv [save_text_files save_text_files_body io_bind emit io_ret create_dir_all file_create
       early_return].
  destruct (create_dir_all_ok env "text_json"); [|reflexivity].
  cbn -[write_lines_unwrap write_lines_logged text_lines string_of_N].
  repeat match goal with
  | |- context [file_create_ok env ?p] =>
      destruct (file_create_ok env p);
      cbn -[write_lines_unwrap write_lines_logged text_lines string_of_N]
  | |- context [write_lines_unwrap env ?p ?ls ?tr] =>
      rewrite (write_lines_unwrap_ok env p ls tr) by first [exact Hnew | exact Hcur];
      cbn -[write_lines_unwrap write_lines_logged text_lines string_of_N]
  | |- context [write_lines_logged env ?p ?ls ?tr] =>
      let E := fresh "E" in
      destruct (write_lines_logged_no_panic env p ls tr) as [? [E|E]]; rewrite E;
      cbn -[write_lines_unwrap write_lines_logged text_lines string_of_N]
  | |- context [match pj with _ => _ end] => destruct pj
  end; reflexivity.
Qed.

Lemma save_text_files_no_panic_witness :
  snd (save_text_files (mkFsEnv (fun _ => true) (fun p => negb (String.eqb p "text_json/current_text_7.txt"))
                         (fun p _ => negb (String.eqb p "text_json/previous_text_7.txt")))
         7 [[("text", "n")]] [[("text", "c")]] (Some [[("text", "p")]])) = None.
Proof. apply save_text_files_no_panic; reflexivity. Defined.
